(** * layout_GUI: the stacking core (stacker.py) and the XML reader (gen_utils.py)

    A shallow embedding of [src/stacker.py] and [src/gen_utils.py].

    - Coordinates are Python floats in the source.  The main embedding reads
      them as canonical rationals [Qc] with exact arithmetic: what is proved
      there about sums, differences and halves is proved of the exact values.
      The module [Double] embeds the same functions over IEEE binary64
      numbers, the numbers the code runs on; it is where rounding shows.
    - The Maya scene is a finite map from transform-node names to world-space
      bounding boxes; the commands the code issues are recorded in a log, so
      that statements about "which moves were issued" can be made.
    - A Python exception is an explicit [Raise] result; the scene reached so
      far is kept, as a Python exception does not roll anything back. *)

From Stdlib Require Import ZArith QArith Qcanon Field.
From Stdlib Require Import PrimFloat.
From stdpp Require Import base numbers option list strings pretty gmap.

Local Open Scope Qc_scope.

(** ** Data *)

(** [cmds.xform(o, query=True, boundingBox=True)] answers a six-element list
    [[xmin, ymin, zmin, xmax, ymax, zmax]]; the fields are the positions
    0 to 5 of that list. *)
Record bbox : Type := BBox {
  xmin : Qc; ymin : Qc; zmin : Qc;
  xmax : Qc; ymax : Qc; zmax : Qc
}.

(** A three-element Python list [[x, y, z]]. *)
Record point : Type := Point { px : Qc; py : Qc; pz : Qc }.

(** [center_coord[1] = v] *)
Definition set_py (p : point) (v : Qc) : point :=
  {| px := px p; py := v; pz := pz p |}.

(** A relative move issued to the host: [cmds.move(dx, dy, dz, o, relative=True)]. *)
Record move_cmd : Type := Move {
  mv_obj : string; mv_dx : Qc; mv_dy : Qc; mv_dz : Qc
}.

(** The world the stacker runs in. *)
Record maya : Type := Maya {
  scene  : gmap string bbox;
  moves  : list move_cmd;
  stdout : list string
}.

Inductive exn : Type :=
| HostQueryFailure   (* a Maya command on a node that does not exist *)
| TypeError
| IndexError
| KeyError
| IOError
| ParseError.

Inductive result (A : Type) : Type :=
| Ret (a : A)
| Raise (e : exn).
Arguments Ret {A} a.
Arguments Raise {A} e.

(** What the Python functions of stacker.py return: [None] or [True]. *)
Inductive pyflag : Type := PyNone | PyTrue.

#[global] Instance bbox_eq_dec : EqDecision bbox.
Proof. solve_decision. Defined.
#[global] Instance point_eq_dec : EqDecision point.
Proof. solve_decision. Defined.
#[global] Instance move_cmd_eq_dec : EqDecision move_cmd.
Proof. solve_decision. Defined.
#[global] Instance exn_eq_dec : EqDecision exn.
Proof. solve_decision. Defined.
#[global] Instance pyflag_eq_dec : EqDecision pyflag.
Proof. solve_decision. Defined.

(** ** A state-and-exception monad *)

Module St.

Definition M (S A : Type) : Type := S → result A * S.

Definition ret {S A} (a : A) : M S A := λ s, (Ret a, s).

Definition raise {S A} (e : exn) : M S A := λ s, (Raise e, s).

Definition bind {S A B} (c : M S A) (k : A → M S B) : M S B :=
  λ s, match c s with
       | (Ret a, s') => k a s'
       | (Raise e, s') => (Raise e, s')
       end.

End St.

Notation "'let!' x ':=' c 'in' k" := (St.bind c (λ x, k))
  (at level 10, x pattern, c at level 100, k at level 200,
   format "'[v' 'let!'  x  ':='  c  'in' '/' k ']'").
Notation "c ';;' k" := (St.bind c (λ _, k))
  (at level 100, k at level 200, right associativity).

(** ** The host (Maya) *)

(** Shift a bounding box by [(dx, dy, dz)]. *)
Definition translate (dx dy dz : Qc) (b : bbox) : bbox :=
  {| xmin := xmin b + dx; ymin := ymin b + dy; zmin := zmin b + dz;
     xmax := xmax b + dx; ymax := ymax b + dy; zmax := zmax b + dz |}.

(** Modelled from the spec: the host scene boundary.  [maya.cmds] is not part
    of the repository; the two commands stacker.py calls are modelled after
    the spec's [get_bounding_box(id)] and [translate_relative(id, dx, dy, dz)]:
    a query answers the current world-space box of a named node, a relative
    move shifts the box of that node and of no other node (the nodes handled
    are siblings, none is the parent of another), and either command fails
    on a name the scene does not have. *)
Definition cmds_xform_boundingBox (o : string) : St.M maya bbox :=
  λ w, match scene w !! o with
       | Some b => (Ret b, w)
       | None => (Raise HostQueryFailure, w)
       end.

Definition cmds_move_relative (dx dy dz : Qc) (o : string) : St.M maya unit :=
  λ w, match scene w !! o with
       | Some b =>
           (Ret tt, {| scene := <[o := translate dx dy dz b]> (scene w);
                       moves := moves w ++ [Move o dx dy dz];
                       stdout := stdout w |})
       | None => (Raise HostQueryFailure, w)
       end.

Definition print (msg : string) : St.M maya unit :=
  λ w, (Ret tt, {| scene := scene w; moves := moves w;
                   stdout := stdout w ++ [msg] |}).

(** ** stacker.py *)

(** [get_center_point(object_name, top_flag, bottom_flag)] *)
Definition get_center_point (object_name : string) (top_flag bottom_flag : Z)
  : St.M maya point :=
  let! bound_coord := cmds_xform_boundingBox object_name in
  let center_coord :=
    {| px := (xmin bound_coord + xmax bound_coord) / 2;
       py := (ymin bound_coord + ymax bound_coord) / 2;
       pz := (zmin bound_coord + zmax bound_coord) / 2 |} in
  if (top_flag =? 1)%Z && (bottom_flag =? 0)%Z then
    St.ret (set_py center_coord (ymax bound_coord))
  else if (top_flag =? 0)%Z && (bottom_flag =? 1)%Z then
    St.ret (set_py center_coord (ymin bound_coord))
  else
    St.ret center_coord.

(** [create_stack(object_name, bottom_center, new_point)] *)
Definition create_stack (object_name : string) (bottom_center new_point : point)
  : St.M maya unit :=
  let dist := {| px := px new_point - px bottom_center;
                 py := py new_point - py bottom_center;
                 pz := pz new_point - pz bottom_center |} in
  cmds_move_relative (px dist) (py dist) (pz dist) object_name.

(** [verify_args(arg_list)]: the first [None] element ends the loop. *)
Fixpoint verify_args (arg_list : list (option string)) : pyflag :=
  match arg_list with
  | [] => PyTrue
  | e :: rest =>
      match e with
      | None => PyNone
      | Some _ => verify_args rest
      end
  end.

(** [arg_list[i]]: Python raises [IndexError] out of range.  An element that
    is [None] cannot be handed to the host as a node name. *)
Definition getitem (arg_list : list (option string)) (i : nat)
  : St.M maya string :=
  match arg_list !! i with
  | None => St.raise IndexError
  | Some None => St.raise TypeError
  | Some (Some o) => St.ret o
  end.

(** [for i in idxs: body(i)] *)
Fixpoint for_range {S} (idxs : list nat) (body : nat → St.M S unit) : St.M S unit :=
  match idxs with
  | [] => St.ret tt
  | i :: rest => body i ;; for_range rest body
  end.

(** The body of the loop of [stack_objs]. *)
Definition stack_step (arg_list : list (option string)) (i : nat) : St.M maya unit :=
  let! lower := getitem arg_list i in
  let! top_center := get_center_point lower 1 0 in
  let! upper := getitem arg_list (i + 1) in
  let! bottom_center := get_center_point upper 0 1 in
  let! upper' := getitem arg_list (i + 1) in
  create_stack upper' bottom_center top_center.

(** [stack_objs(arg_list)] *)
Definition stack_objs (arg_list : list (option string)) : St.M maya pyflag :=
  match verify_args arg_list with
  | PyNone =>
      print "Given incorrect arguments, exiting now" ;;
      St.ret PyNone
  | PyTrue =>
      for_range (seq 0 (length arg_list - 1)) (stack_step arg_list) ;;
      St.ret PyTrue
  end.

(** [offset_objs_in_x(obj_static, obj_move, offset_val)] *)
Definition offset_objs_in_x (obj_static obj_move : string) (offset_val : Qc)
  : St.M maya unit :=
  let! static_center_prev := get_center_point obj_static 0 0 in
  let! move_center_prev := get_center_point obj_move 0 0 in
  cmds_move_relative (px static_center_prev - px move_center_prev) 0 0 obj_move ;;
  let! static_bounds := cmds_xform_boundingBox obj_static in
  let! static_center_new := get_center_point obj_static 0 0 in
  let static_dist := xmax static_bounds - px static_center_new in
  let! move_bounds := cmds_xform_boundingBox obj_move in
  let! move_center_new := get_center_point obj_move 0 0 in
  let move_dist := px move_center_new - xmin move_bounds in
  let offset_to := offset_val + static_dist + move_dist in
  cmds_move_relative offset_to 0 0 obj_move.

(** ** Reference points of a bounding box *)

Definition center_of (b : bbox) : point :=
  {| px := (xmin b + xmax b) / 2;
     py := (ymin b + ymax b) / 2;
     pz := (zmin b + zmax b) / 2 |}.

Definition top_center_of (b : bbox) : point := set_py (center_of b) (ymax b).
Definition bottom_center_of (b : bbox) : point := set_py (center_of b) (ymin b).

(** Every object named in [names] is in the scene. *)
Definition all_present (sc : gmap string bbox) (names : list string) : Prop :=
  Forall (λ o, is_Some (sc !! o)) names.


(** One turn of the loop of [stack_objs], on the two names the indices
    select. *)
Definition align_pair (lower upper : string) : St.M maya unit :=
  let! top_center := get_center_point lower 1 0 in
  let! bottom_center := get_center_point upper 0 1 in
  create_stack upper bottom_center top_center.

(** The loop of [stack_objs] read along the list instead of through indices:
    [lower] is the element just placed, [rest] the elements still to place.
    [stack_loop_unfold] below shows it is the loop of the source. *)
Fixpoint stack_from (lower : string) (rest : list string) : St.M maya unit :=
  match rest with
  | [] => St.ret tt
  | upper :: rest' => align_pair lower upper ;; stack_from upper rest'
  end.




(** A move along x only. *)
Definition along_x (o : string) (m : move_cmd) : Prop :=
  mv_obj m = o ∧ mv_dy m = 0 ∧ mv_dz m = 0.

(** Two boxes with the same extent along y and z. *)
Definition same_y_z (b b' : bbox) : Prop :=
  ymin b' = ymin b ∧ ymax b' = ymax b ∧ zmin b' = zmin b ∧ zmax b' = zmax b.

(** ** Concrete scenes for the examples *)

Definition box_of_Z (x0 y0 z0 x1 y1 z1 : Z) : bbox :=
  {| xmin := Qc_of_Z x0; ymin := Qc_of_Z y0; zmin := Qc_of_Z z0;
     xmax := Qc_of_Z x1; ymax := Qc_of_Z y1; zmax := Qc_of_Z z1 |}.

Definition world_of (sc : gmap string bbox) : maya :=
  {| scene := sc; moves := []; stdout := [] |}.

(** The two objects of the spec's worked example: a cube of side 2 and a
    slab of height 1, both resting on the ground at the same place. *)
Definition two_boxes : maya :=
  world_of (<["A" := box_of_Z 0 0 0 2 2 2]> (<["B" := box_of_Z 0 0 0 2 1 2]> ∅)).


(** ** gen_utils.py *)

(** An element of an [xml.etree.ElementTree] tree: its tag, its attribute
    dictionary and its child elements in document order ([getchildren()]). *)
#[local] Unset Elimination Schemes.
Inductive element : Type :=
| Element (tag : string) (attrib : gmap string string) (children : list element).
#[local] Set Elimination Schemes.

Definition tag (e : element) : string := let 'Element t _ _ := e in t.
Definition attrib (e : element) : gmap string string := let 'Element _ a _ := e in a.
Definition children (e : element) : list element := let 'Element _ _ c := e in c.

(** What a path of the file system names: a directory, or a regular file
    whose content is the XML tree it parses to ([None] when it is not
    well-formed XML). *)
Inductive fs_entry : Type :=
| Directory
| RegularFile (content : option element).

(** The file system, with the log of the paths that have been opened and
    read. *)
Record fsys : Type := FSys {
  files  : gmap string fs_entry;
  opened : list string
}.

(** [os.path.isfile(path)]: true on a regular file, false on a directory and
    on a path that names nothing; reads no file. *)
Definition os_path_isfile (path : string) : St.M fsys bool :=
  λ s, (Ret match files s !! path with
            | Some (RegularFile _) => true
            | _ => false
            end, s).

(** [et.parse(path).getroot()]: opens and reads the file. *)
Definition et_parse_getroot (path : string) : St.M fsys element :=
  λ s, match files s !! path with
       | Some (RegularFile (Some root)) =>
           (Ret root, {| files := files s; opened := opened s ++ [path] |})
       | Some (RegularFile None) =>
           (Raise ParseError, {| files := files s; opened := opened s ++ [path] |})
       | _ => (Raise IOError, s)
       end.

(** The dictionary [read_stack_xml] fills: three levels of [Autovivification]
    dictionaries, with the strings of the file at the leaves. *)
Abbreviation stack_dict := (gmap string (gmap string (gmap string string))).

(** [Autovivification.__getitem__(self, item)]: a missing key is bound to a
    new empty dictionary, which is the answer.  The second component is
    [self] after the call. *)
Definition autoviv_getitem {V} `{Empty V} (item : string) (self : gmap string V)
  : V * gmap string V :=
  match self !! item with
  | Some value => (value, self)
  | None => (∅, <[item := ∅]> self)
  end.

(** [contents[g][o][c] = value].  The inner dictionaries are reached through
    their parent only, so the update of the innermost one is written back
    into its parents. *)
Definition setitem3 (g o c value : string) (contents : stack_dict) : stack_dict :=
  let '(level1, contents1) := autoviv_getitem g contents in
  let '(level2, level1') := autoviv_getitem o level1 in
  <[g := <[o := <[c := value]> level2]> level1']> contents1.

(** [for x in xs: acc = body(x, acc)], where the body may raise. *)
Fixpoint for_each {A B} (xs : list A) (body : A → B → result B) (acc : B)
  : result B :=
  match xs with
  | [] => Ret acc
  | x :: rest =>
      match body x acc with
      | Ret acc' => for_each rest body acc'
      | Raise e => Raise e
      end
  end.

(** The three nested loops of [read_stack_xml]. *)
Definition read_groups (root : element) : result stack_dict :=
  for_each (children root) (λ stack contents,
    for_each (children stack) (λ i contents,
      for_each (children i) (λ comp contents,
        match attrib comp !! "value" with
        | None => Raise KeyError
        | Some value =>
            Ret (setitem3 (tag stack) (tag i) (tag comp) value contents)
        end) contents) contents) ∅.

(** [read_stack_xml(file_path)]; the Python [None] is [None]. *)
Definition read_stack_xml (file_path : string) : St.M fsys (option stack_dict) :=
  let! is_file := os_path_isfile file_path in
  if negb is_file then St.ret None
  else
    let! root := et_parse_getroot file_path in
    λ s, match read_groups root with
         | Ret contents => (Ret (Some contents), s)
         | Raise e => (Raise e, s)
         end.

(** [contents[g][o][c]], read without creating anything. *)
Definition lookup3 (contents : stack_dict) (g o c : string) : option string :=
  level1 ← contents !! g;
  level2 ← (level1 : gmap string (gmap string string)) !! o;
  (level2 : gmap string string) !! c.

(** The third-level elements of a document in document order, each with the
    tags of the group and of the object entry it is in. *)
Definition components (root : element) : list (string * string * element) :=
  stack ← children root;
  i ← children stack;
  comp ← children i;
  [(tag stack, tag i, comp)].

(** The body of the innermost loop, on a component and the tags above it. *)
Definition store_component (entry : string * string * element)
    (contents : stack_dict) : result stack_dict :=
  let '(g, o, comp) := entry in
  match attrib comp !! "value" with
  | None => Raise KeyError
  | Some value => Ret (setitem3 g o (tag comp) value contents)
  end.

(** The [value] attribute of the last component at the path [g/o/c]. *)
Fixpoint last_value (cs : list (string * string * element)) (g o c : string)
  : option string :=
  match cs with
  | [] => None
  | (g', o', comp) :: rest =>
      match last_value rest g o c with
      | Some v => Some v
      | None =>
          if decide ((g', o', tag comp) = (g, o, c))
          then attrib comp !! "value"
          else None
      end
  end.

(** Two documents for the examples.  In the first the object entry carries
    [tx], [ty] and [tz] as attributes; in the second they are child elements
    with a [value] attribute. *)
Definition doc_with_attributes : element :=
  Element "xml_root" ∅
    [Element "maya_stacks" ∅
       [Element "stack001" (<["tx" := "1.0"]> (<["ty" := "2.0"]> (<["tz" := "3.0"]> ∅))) []]].

Definition doc_with_children : element :=
  Element "xml_root" ∅
    [Element "maya_stacks" ∅
       [Element "stack001" ∅
          [Element "tx" (<["value" := "1.0"]> ∅) [];
           Element "ty" (<["value" := "two"]> ∅) [];
           Element "tz" (<["value" := "3.0"]> ∅) []]]].

Definition disk (path : string) (root : element) : fsys :=
  {| files := <[path := RegularFile (Some root)]> (<["/tmp" := Directory]> ∅);
     opened := [] |}.

(** ** stacker.py over IEEE binary64 numbers *)

(** The functions of stacker.py again, with the numbers of the source: a
    Python float is an IEEE binary64 number, [+], [-] and [/] round to
    nearest.  The host shifts each bound of a box by the offset it is given,
    with the same arithmetic. *)
Module Double.

Record bbox : Type := BBox {
  xmin : PrimFloat.float; ymin : PrimFloat.float; zmin : PrimFloat.float;
  xmax : PrimFloat.float; ymax : PrimFloat.float; zmax : PrimFloat.float
}.

Record point : Type := Point {
  px : PrimFloat.float; py : PrimFloat.float; pz : PrimFloat.float
}.

Definition set_py (p : point) (v : PrimFloat.float) : point :=
  {| px := px p; py := v; pz := pz p |}.

Record move_cmd : Type := Move {
  mv_obj : string;
  mv_dx : PrimFloat.float; mv_dy : PrimFloat.float; mv_dz : PrimFloat.float
}.

Record maya : Type := Maya {
  scene  : gmap string bbox;
  moves  : list move_cmd;
  stdout : list string
}.

Definition translate (dx dy dz : PrimFloat.float) (b : bbox) : bbox :=
  {| xmin := PrimFloat.add (xmin b) dx;
     ymin := PrimFloat.add (ymin b) dy;
     zmin := PrimFloat.add (zmin b) dz;
     xmax := PrimFloat.add (xmax b) dx;
     ymax := PrimFloat.add (ymax b) dy;
     zmax := PrimFloat.add (zmax b) dz |}.

Definition cmds_xform_boundingBox (o : string) : St.M maya bbox :=
  λ w, match scene w !! o with
       | Some b => (Ret b, w)
       | None => (Raise HostQueryFailure, w)
       end.

Definition cmds_move_relative (dx dy dz : PrimFloat.float) (o : string)
  : St.M maya unit :=
  λ w, match scene w !! o with
       | Some b =>
           (Ret tt, {| scene := <[o := translate dx dy dz b]> (scene w);
                       moves := moves w ++ [Move o dx dy dz];
                       stdout := stdout w |})
       | None => (Raise HostQueryFailure, w)
       end.

Definition print (msg : string) : St.M maya unit :=
  λ w, (Ret tt, {| scene := scene w; moves := moves w;
                   stdout := stdout w ++ [msg] |}).

(** [get_center_point(object_name, top_flag, bottom_flag)] *)
Definition get_center_point (object_name : string) (top_flag bottom_flag : Z)
  : St.M maya point :=
  let! bound_coord := cmds_xform_boundingBox object_name in
  let center_coord :=
    {| px := PrimFloat.div (PrimFloat.add (xmin bound_coord) (xmax bound_coord)) 2%float;
       py := PrimFloat.div (PrimFloat.add (ymin bound_coord) (ymax bound_coord)) 2%float;
       pz := PrimFloat.div (PrimFloat.add (zmin bound_coord) (zmax bound_coord)) 2%float |} in
  if (top_flag =? 1)%Z && (bottom_flag =? 0)%Z then
    St.ret (set_py center_coord (ymax bound_coord))
  else if (top_flag =? 0)%Z && (bottom_flag =? 1)%Z then
    St.ret (set_py center_coord (ymin bound_coord))
  else
    St.ret center_coord.

(** [create_stack(object_name, bottom_center, new_point)] *)
Definition create_stack (object_name : string) (bottom_center new_point : point)
  : St.M maya unit :=
  let dist := {| px := PrimFloat.sub (px new_point) (px bottom_center);
                 py := PrimFloat.sub (py new_point) (py bottom_center);
                 pz := PrimFloat.sub (pz new_point) (pz bottom_center) |} in
  cmds_move_relative (px dist) (py dist) (pz dist) object_name.

(** [arg_list[i]] *)
Definition getitem (arg_list : list (option string)) (i : nat)
  : St.M maya string :=
  match arg_list !! i with
  | None => St.raise IndexError
  | Some None => St.raise TypeError
  | Some (Some o) => St.ret o
  end.

(** The body of the loop of [stack_objs]. *)
Definition stack_step (arg_list : list (option string)) (i : nat) : St.M maya unit :=
  let! lower := getitem arg_list i in
  let! top_center := get_center_point lower 1 0 in
  let! upper := getitem arg_list (i + 1) in
  let! bottom_center := get_center_point upper 0 1 in
  let! upper' := getitem arg_list (i + 1) in
  create_stack upper' bottom_center top_center.

(** [stack_objs(arg_list)] *)
Definition stack_objs (arg_list : list (option string)) : St.M maya pyflag :=
  match verify_args arg_list with
  | PyNone =>
      print "Given incorrect arguments, exiting now" ;;
      St.ret PyNone
  | PyTrue =>
      for_range (seq 0 (length arg_list - 1)) (stack_step arg_list) ;;
      St.ret PyTrue
  end.

(** [offset_objs_in_x(obj_static, obj_move, offset_val)] *)
Definition offset_objs_in_x (obj_static obj_move : string) (offset_val : PrimFloat.float)
  : St.M maya unit :=
  let! static_center_prev := get_center_point obj_static 0 0 in
  let! move_center_prev := get_center_point obj_move 0 0 in
  cmds_move_relative (PrimFloat.sub (px static_center_prev) (px move_center_prev))
                     0%float 0%float obj_move ;;
  let! static_bounds := cmds_xform_boundingBox obj_static in
  let! static_center_new := get_center_point obj_static 0 0 in
  let static_dist := PrimFloat.sub (xmax static_bounds) (px static_center_new) in
  let! move_bounds := cmds_xform_boundingBox obj_move in
  let! move_center_new := get_center_point obj_move 0 0 in
  let move_dist := PrimFloat.sub (px move_center_new) (xmin move_bounds) in
  let offset_to := PrimFloat.add (PrimFloat.add offset_val static_dist) move_dist in
  cmds_move_relative offset_to 0%float 0%float obj_move.

Definition world_of (sc : gmap string bbox) : maya :=
  {| scene := sc; moves := []; stdout := [] |}.


(** The two objects of the spec's worked example. *)
Definition two_boxes : maya :=
  world_of (<["A" := BBox 0 0 0 2 2 2]> (<["B" := BBox 0 0 0 2 1 2]> ∅)).

End Double.

(** ** Further definitions: extents, and the separation loop of
    builder_gui.py *)


(** ['stack00%s' % str(n)] *)
Definition stack_name (n : nat) : string := "stack00" +:+ pretty n.


(** A dictionary read from a file has no empty inner dictionary. *)
Definition no_empty_level (contents : stack_dict) : Prop :=
  ∀ g level1, contents !! g = Some level1 →
    level1 ≠ ∅ ∧ ∀ o level2, level1 !! o = Some level2 → level2 ≠ ∅.


(** The document [doc_with_children] with the components of its object
    entry in another order, and an earlier [ty] that a later one replaces. *)
Definition doc_reordered : element :=
  Element "xml_root" ∅
    [Element "maya_stacks" ∅
       [Element "stack001" ∅
          [Element "ty" (<["value" := "2.0"]> ∅) [];
           Element "tz" (<["value" := "3.0"]> ∅) [];
           Element "ty" (<["value" := "two"]> ∅) [];
           Element "tx" (<["value" := "1.0"]> ∅) []]]].

(** A document whose [ty] component has no [value] attribute. *)
Definition doc_missing_value : element :=
  Element "xml_root" ∅
    [Element "maya_stacks" ∅
       [Element "stack001" ∅
          [Element "tx" (<["value" := "1.0"]> ∅) [];
           Element "ty" (<["val" := "2.0"]> ∅) [];
           Element "tz" (<["value" := "3.0"]> ∅) []]]].
(** ** Basic facts about the host commands *)




Lemma xform_present w o b :
  scene w !! o = Some b → cmds_xform_boundingBox o w = (Ret b, w).
Proof. intros H. unfold cmds_xform_boundingBox. by rewrite H. Qed.

Lemma xform_absent w o :
  scene w !! o = None → cmds_xform_boundingBox o w = (Raise HostQueryFailure, w).
Proof. intros H. unfold cmds_xform_boundingBox. by rewrite H. Qed.

Lemma move_present w o b dx dy dz :
  scene w !! o = Some b →
  cmds_move_relative dx dy dz o w =
    (Ret tt, {| scene := <[o := translate dx dy dz b]> (scene w);
                moves := moves w ++ [Move o dx dy dz];
                stdout := stdout w |}).
Proof. intros H. unfold cmds_move_relative. by rewrite H. Qed.

Lemma move_absent w o dx dy dz :
  scene w !! o = None →
  cmds_move_relative dx dy dz o w = (Raise HostQueryFailure, w).
Proof. intros H. unfold cmds_move_relative. by rewrite H. Qed.

Lemma bind_ret {S A B} (c : St.M S A) (k : A → St.M S B) s a s' :
  c s = (Ret a, s') → St.bind c k s = k a s'.
Proof. intros H. unfold St.bind. by rewrite H. Qed.

Lemma bind_raise {S A B} (c : St.M S A) (k : A → St.M S B) s e s' :
  c s = (Raise e, s') → St.bind c k s = (Raise e, s').
Proof. intros H. unfold St.bind. by rewrite H. Qed.

Lemma bind_ext {S A B} (c : St.M S A) (k1 k2 : A → St.M S B) s :
  (∀ a s', k1 a s' = k2 a s') → St.bind c k1 s = St.bind c k2 s.
Proof. intros H. unfold St.bind. by destruct (c s) as [[a|e] s']. Qed.

(** ** get_center_point *)

Lemma get_center_point_absent w o tf bf :
  scene w !! o = None →
  get_center_point o tf bf w = (Raise HostQueryFailure, w).
Proof.
  intros H. unfold get_center_point.
  by rewrite (bind_raise _ _ _ _ _ (xform_absent _ _ H)).
Qed.

Lemma get_center_point_center w o b :
  scene w !! o = Some b → get_center_point o 0 0 w = (Ret (center_of b), w).
Proof.
  intros H. unfold get_center_point.
  by rewrite (bind_ret _ _ _ _ _ (xform_present _ _ _ H)).
Qed.

Lemma get_center_point_top w o b :
  scene w !! o = Some b → get_center_point o 1 0 w = (Ret (top_center_of b), w).
Proof.
  intros H. unfold get_center_point.
  by rewrite (bind_ret _ _ _ _ _ (xform_present _ _ _ H)).
Qed.

Lemma get_center_point_bottom w o b :
  scene w !! o = Some b → get_center_point o 0 1 w = (Ret (bottom_center_of b), w).
Proof.
  intros H. unfold get_center_point.
  by rewrite (bind_ret _ _ _ _ _ (xform_present _ _ _ H)).
Qed.

(** A query never changes the world, whatever it answers. *)
Lemma get_center_point_pure w o tf bf : (get_center_point o tf bf w).2 = w.
Proof.
  unfold get_center_point, St.bind, cmds_xform_boundingBox.
  destruct (scene w !! o); [|done].
  by repeat case_match.
Qed.

(** C4: on an object whose bounding box is [x0,y0,z0,x1,y1,z1],
    [get_center_point] answers x = (x0+x1)/2 and z = (z0+z1)/2 in each of the
    three modes, with y = (y0+y1)/2 in CENTER mode (both flags 0), y = y1 in
    TOP mode (flags 1, 0) and y = y0 in BOTTOM mode (flags 0, 1); the world is
    left as it was. *)
Theorem get_center_point_modes (w : maya) (o : string) (b : bbox) :
  scene w !! o = Some b →
  get_center_point o 0 0 w =
    (Ret {| px := (xmin b + xmax b) / 2;
            py := (ymin b + ymax b) / 2;
            pz := (zmin b + zmax b) / 2 |}, w)
  ∧ get_center_point o 1 0 w =
    (Ret {| px := (xmin b + xmax b) / 2;
            py := ymax b;
            pz := (zmin b + zmax b) / 2 |}, w)
  ∧ get_center_point o 0 1 w =
    (Ret {| px := (xmin b + xmax b) / 2;
            py := ymin b;
            pz := (zmin b + zmax b) / 2 |}, w).
Proof.
  intros H. split_and!.
  - by rewrite (get_center_point_center _ _ _ H).
  - by rewrite (get_center_point_top _ _ _ H).
  - by rewrite (get_center_point_bottom _ _ _ H).
Qed.

Lemma get_center_point_modes_witness :
  get_center_point "A" 0 0 two_boxes =
    (Ret {| px := (Qc_of_Z 0 + Qc_of_Z 2) / 2;
            py := (Qc_of_Z 0 + Qc_of_Z 2) / 2;
            pz := (Qc_of_Z 0 + Qc_of_Z 2) / 2 |}, two_boxes)
  ∧ get_center_point "A" 1 0 two_boxes =
    (Ret {| px := (Qc_of_Z 0 + Qc_of_Z 2) / 2;
            py := Qc_of_Z 2;
            pz := (Qc_of_Z 0 + Qc_of_Z 2) / 2 |}, two_boxes)
  ∧ get_center_point "A" 0 1 two_boxes =
    (Ret {| px := (Qc_of_Z 0 + Qc_of_Z 2) / 2;
            py := Qc_of_Z 0;
            pz := (Qc_of_Z 0 + Qc_of_Z 2) / 2 |}, two_boxes).
Proof.
  apply (get_center_point_modes two_boxes "A" (box_of_Z 0 0 0 2 2 2)).
  vm_compute. reflexivity.
Defined.

(** C9: for every pair of flags other than (1, 0) and (0, 1), both flags 1
    and both flags 0 included, [get_center_point] answers the full geometric
    centre of the bounding box and does not fail. *)
Theorem get_center_point_other_flags (w : maya) (o : string) (b : bbox)
    (top_flag bottom_flag : Z) :
  scene w !! o = Some b →
  (top_flag, bottom_flag) ≠ (1, 0)%Z →
  (top_flag, bottom_flag) ≠ (0, 1)%Z →
  get_center_point o top_flag bottom_flag w =
    (Ret {| px := (xmin b + xmax b) / 2;
            py := (ymin b + ymax b) / 2;
            pz := (zmin b + zmax b) / 2 |}, w).
Proof.
  intros H Htop Hbot. unfold get_center_point.
  rewrite (bind_ret _ _ _ _ _ (xform_present _ _ _ H)).
  destruct (top_flag =? 1)%Z eqn:E1, (bottom_flag =? 0)%Z eqn:E2;
    destruct (top_flag =? 0)%Z eqn:E3, (bottom_flag =? 1)%Z eqn:E4;
    simpl; try reflexivity;
    repeat match goal with
           | E : (_ =? _)%Z = true |- _ => apply Z.eqb_eq in E
           end; subst; congruence.
Qed.

Lemma get_center_point_other_flags_witness :
  get_center_point "B" 1 1 two_boxes =
    (Ret {| px := (Qc_of_Z 0 + Qc_of_Z 2) / 2;
            py := (Qc_of_Z 0 + Qc_of_Z 1) / 2;
            pz := (Qc_of_Z 0 + Qc_of_Z 2) / 2 |}, two_boxes)
  ∧ get_center_point "B" 0 0 two_boxes =
    (Ret {| px := (Qc_of_Z 0 + Qc_of_Z 2) / 2;
            py := (Qc_of_Z 0 + Qc_of_Z 1) / 2;
            pz := (Qc_of_Z 0 + Qc_of_Z 2) / 2 |}, two_boxes).
Proof.
  split.
  - apply (get_center_point_other_flags two_boxes "B" (box_of_Z 0 0 0 2 1 2) 1 1).
    + vm_compute. reflexivity.
    + discriminate.
    + discriminate.
  - reflexivity.
Defined.

(** ** create_stack *)

(** C5: [create_stack] issues one relative move of the object by
    [new_point - bottom_center], taken componentwise: each of the six bounds
    of the object moves by that difference (so its extent along every axis is
    kept), and no other object changes. *)
Theorem create_stack_translates (w : maya) (o : string) (b : bbox)
    (from_point to_point : point) :
  scene w !! o = Some b →
  let dx := px to_point - px from_point in
  let dy := py to_point - py from_point in
  let dz := pz to_point - pz from_point in
  ∃ w', create_stack o from_point to_point w = (Ret tt, w')
    ∧ moves w' = moves w ++ [Move o dx dy dz]
    ∧ scene w' !! o =
        Some {| xmin := xmin b + dx; ymin := ymin b + dy; zmin := zmin b + dz;
                xmax := xmax b + dx; ymax := ymax b + dy; zmax := zmax b + dz |}
    ∧ (∀ o', o' ≠ o → scene w' !! o' = scene w !! o')
    ∧ stdout w' = stdout w.
Proof.
  intros H dx dy dz. unfold create_stack. simpl.
  rewrite (move_present _ _ _ _ _ _ H).
  eexists. split; [reflexivity|]. simpl. split_and!.
  - done.
  - by rewrite lookup_insert_eq.
  - intros o' Hne. by rewrite lookup_insert_ne.
  - done.
Qed.

Lemma create_stack_translates_witness :
  let from_point := {| px := 1; py := 0; pz := 1 |} in
  let to_point := {| px := 1; py := 2; pz := 1 |} in
  let b := box_of_Z 0 0 0 2 1 2 in
  let dx := px to_point - px from_point in
  let dy := py to_point - py from_point in
  let dz := pz to_point - pz from_point in
  ∃ w', create_stack "B" from_point to_point two_boxes = (Ret tt, w')
    ∧ moves w' = moves two_boxes ++ [Move "B" dx dy dz]
    ∧ scene w' !! "B" =
        Some {| xmin := xmin b + dx; ymin := ymin b + dy; zmin := zmin b + dz;
                xmax := xmax b + dx; ymax := ymax b + dy; zmax := zmax b + dz |}
    ∧ (∀ o', o' ≠ "B" → scene w' !! o' = scene two_boxes !! o')
    ∧ stdout w' = stdout two_boxes.
Proof.
  apply (create_stack_translates two_boxes "B" (box_of_Z 0 0 0 2 1 2)).
  vm_compute. reflexivity.
Defined.

(** ** verify_args and the failure of stack_objs *)

Lemma verify_args_None (l : list (option string)) :
  verify_args l = PyNone ↔ None ∈ l.
Proof.
  induction l as [|e l IH]; simpl.
  - split; [done|]. by intros ?%elem_of_nil.
  - destruct e as [o|].
    + rewrite IH, elem_of_cons. split; [by right|]. by intros [?|?].
    + split; [|done]. intros _. apply elem_of_cons. by left.
Qed.

Lemma verify_args_True (l : list (option string)) :
  verify_args l = PyTrue ↔ ∃ names : list string, l = Some <$> names.
Proof.
  induction l as [|e l IH]; simpl.
  - split; [|done]. intros _. by exists [].
  - destruct e as [o|].
    + rewrite IH. split.
      * intros [names ->]. by exists (o :: names).
      * intros [[|o' names] Heq]; [done|].
        injection Heq as _ ->. by exists names.
    + split; [done|]. by intros [[|o' names] Heq].
Qed.

Lemma stack_objs_invalid (l : list (option string)) (w : maya) :
  verify_args l = PyNone →
  stack_objs l w =
    (Ret PyNone, {| scene := scene w; moves := moves w;
                    stdout := stdout w ++ ["Given incorrect arguments, exiting now"] |}).
Proof. intros H. unfold stack_objs. by rewrite H. Qed.

Lemma stack_objs_valid_not_None (l : list (option string)) (w : maya) :
  verify_args l = PyTrue → (stack_objs l w).1 ≠ Ret PyNone.
Proof.
  intros H. unfold stack_objs. rewrite H. unfold St.bind.
  by destruct (for_range _ _ w) as [[[]|e] w'].
Qed.

(** C3 (as amended): [stack_objs] gives up, answering [None], exactly when
    the sequence holds a [None] element; when it does, the scene is the one
    it started from and no move has been issued. *)
Theorem stack_objs_fails_iff_None_element (l : list (option string)) (w : maya) :
  ((stack_objs l w).1 = Ret PyNone ↔ None ∈ l)
  ∧ ((stack_objs l w).1 = Ret PyNone →
       scene (stack_objs l w).2 = scene w ∧ moves (stack_objs l w).2 = moves w).
Proof.
  destruct (verify_args l) eqn:Hv.
  - rewrite (stack_objs_invalid _ _ Hv). simpl.
    split; [|done]. split; [|done]. intros _. by apply verify_args_None.
  - pose proof (stack_objs_valid_not_None l w Hv) as Hne.
    split; [|done]. split; [done|].
    intros Hin%verify_args_None. congruence.
Qed.

Lemma stack_objs_fails_iff_None_element_witness :
  ((stack_objs [Some "A"; None] two_boxes).1 = Ret PyNone
     ↔ None ∈ [Some "A"; None])
  ∧ ((stack_objs [Some "A"; None] two_boxes).1 = Ret PyNone →
       scene (stack_objs [Some "A"; None] two_boxes).2 = scene two_boxes
       ∧ moves (stack_objs [Some "A"; None] two_boxes).2 = moves two_boxes).
Proof. exact (stack_objs_fails_iff_None_element [Some "A"; None] two_boxes). Defined.

(** C3, the claim as stated fails on the empty sequence: it has no [None]
    element, [stack_objs] answers [True] and not [None]. *)
Lemma stack_objs_empty_is_accepted :
  let w := {| scene := ∅; moves := []; stdout := [] |} in
  stack_objs [] w = (Ret PyTrue, w)
  ∧ ¬ ((stack_objs [] w).1 = Ret PyNone ↔ ([] = @nil (option string) ∨ None ∈ @nil (option string))).
Proof.
  split; [reflexivity|].
  intros [_ Hback]. specialize (Hback (or_introl eq_refl)). discriminate.
Qed.

(** ** The loop of stack_objs *)

Lemma getitem_names (names : list string) (i : nat) (o : string) (w : maya) :
  names !! i = Some o → getitem (Some <$> names) i w = (Ret o, w).
Proof. intros H. unfold getitem. by rewrite list_lookup_fmap, H. Qed.

Lemma stack_step_names (names : list string) (i : nat) (a b : string) (w : maya) :
  names !! i = Some a → names !! (i + 1)%nat = Some b →
  stack_step (Some <$> names) i w = align_pair a b w.
Proof.
  intros Ha Hb. unfold stack_step, align_pair.
  rewrite (bind_ret _ _ _ _ _ (getitem_names _ _ _ _ Ha)).
  apply bind_ext. intros top w1.
  rewrite (bind_ret _ _ _ _ _ (getitem_names _ _ _ _ Hb)).
  apply bind_ext. intros bottom w2.
  by rewrite (bind_ret _ _ _ _ _ (getitem_names _ _ _ _ Hb)).
Qed.

Lemma stack_loop_unfold (rest : list string) :
  ∀ (pre : list string) (a : string) (w : maya),
    for_range (seq (length pre) (length rest))
              (stack_step (Some <$> (pre ++ a :: rest))) w
    = stack_from a rest w.
Proof.
  induction rest as [|b rest IH]; intros pre a w; [done|].
  simpl length. simpl seq. simpl for_range. simpl stack_from.
  assert (Hs : stack_step (Some <$> (pre ++ a :: b :: rest)) (length pre) w
               = align_pair a b w).
  { apply stack_step_names.
    - by rewrite list_lookup_middle.
    - rewrite lookup_app_r by lia.
      by replace (length pre + 1 - length pre)%nat with 1%nat by lia. }
  specialize (IH (pre ++ [a]) b).
  rewrite length_app in IH. simpl in IH.
  replace (length pre + 1)%nat with (S (length pre)) in IH by lia.
  rewrite <- app_assoc in IH. simpl in IH.
  destruct (align_pair a b w) as [[[]|e] w1] eqn:E.
  - rewrite (bind_ret _ _ _ _ _ E), (bind_ret _ _ _ _ _ Hs). apply IH.
  - by rewrite (bind_raise _ _ _ _ _ E), (bind_raise _ _ _ _ _ Hs).
Qed.

Lemma stack_objs_names (a : string) (rest : list string) (w : maya) :
  stack_objs (Some <$> (a :: rest)) w
  = (stack_from a rest ;; St.ret PyTrue) w.
Proof.
  unfold stack_objs.
  assert (Hv : verify_args (Some <$> (a :: rest)) = PyTrue)
    by (apply verify_args_True; eauto).
  rewrite Hv, length_fmap. simpl length. rewrite Nat.sub_succ, Nat.sub_0_r.
  pose proof (stack_loop_unfold rest [] a w) as Hloop.
  change (length (@nil string)) with 0%nat in Hloop.
  change ([] ++ a :: rest) with (a :: rest) in Hloop.
  unfold St.bind. by rewrite Hloop.
Qed.

Lemma stack_objs_nil (w : maya) : stack_objs [] w = (Ret PyTrue, w).
Proof. reflexivity. Qed.

(** ** Arithmetic of one alignment *)


Lemma all_present_insert (sc : gmap string bbox) (o : string) (b : bbox)
    (names : list string) :
  all_present sc names → all_present (<[o := b]> sc) names.
Proof.
  unfold all_present. intros H. eapply Forall_impl; [exact H|].
  intros x Hx. simpl.
  rewrite lookup_insert_is_Some. destruct (decide (o = x)); auto.
Qed.

Lemma align_pair_present (w : maya) (a b : string) (bl bu : bbox) :
  scene w !! a = Some bl → scene w !! b = Some bu →
  let top := top_center_of bl in
  let bottom := bottom_center_of bu in
  let dx := px top - px bottom in
  let dy := py top - py bottom in
  let dz := pz top - pz bottom in
  align_pair a b w =
    (Ret tt, {| scene := <[b := translate dx dy dz bu]> (scene w);
                moves := moves w ++ [Move b dx dy dz];
                stdout := stdout w |}).
Proof.
  intros Hbl Hbu. unfold align_pair.
  rewrite (bind_ret _ _ _ _ _ (get_center_point_top _ _ _ Hbl)).
  rewrite (bind_ret _ _ _ _ _ (get_center_point_bottom _ _ _ Hbu)).
  unfold create_stack. by rewrite (move_present _ _ _ _ _ _ Hbu).
Qed.




(** ** stack_objs on a sequence of names *)

Lemma stack_objs_from (a : string) (rest : list string) (w w' : maya) :
  stack_from a rest w = (Ret tt, w') →
  stack_objs (Some <$> (a :: rest)) w = (Ret PyTrue, w').
Proof. intros H. by rewrite stack_objs_names, (bind_ret _ _ _ _ _ H). Qed.






(** ** offset_objs_in_x *)

(** The run of [offset_objs_in_x] when both objects are in the scene;
    [bs1] is the box of the static object as the code reads it after the
    first move. *)
Lemma offset_run (w : maya) (S M : string) (gap : Qc) (bs bm : bbox) :
  scene w !! S = Some bs → scene w !! M = Some bm →
  let dx1 := px (center_of bs) - px (center_of bm) in
  let bm1 := translate dx1 0 0 bm in
  let bs1 := if decide (S = M) then bm1 else bs in
  let off := gap + (xmax bs1 - px (center_of bs1))
                 + (px (center_of bm1) - xmin bm1) in
  offset_objs_in_x S M gap w =
    (Ret tt, {| scene := <[M := translate off 0 0 bm1]> (scene w);
                moves := moves w ++ [Move M dx1 0 0; Move M off 0 0];
                stdout := stdout w |}).
Proof.
  intros HS HM dx1 bm1 bs1 off. unfold offset_objs_in_x.
  rewrite (bind_ret _ _ _ _ _ (get_center_point_center _ _ _ HS)).
  rewrite (bind_ret _ _ _ _ _ (get_center_point_center _ _ _ HM)).
  rewrite (bind_ret _ _ _ _ _ (move_present _ _ _ _ _ _ HM)).
  fold dx1. fold bm1.
  set (w1 := {| scene := <[M:=bm1]> (scene w); moves := _; stdout := _ |}).
  assert (HS1 : scene w1 !! S = Some bs1).
  { subst w1 bs1. simpl. destruct (decide (S = M)) as [->|Hne].
    - by rewrite lookup_insert_eq.
    - by rewrite lookup_insert_ne. }
  assert (HM1 : scene w1 !! M = Some bm1).
  { subst w1. simpl. by rewrite lookup_insert_eq. }
  rewrite (bind_ret _ _ _ _ _ (xform_present _ _ _ HS1)).
  rewrite (bind_ret _ _ _ _ _ (get_center_point_center _ _ _ HS1)).
  rewrite (bind_ret _ _ _ _ _ (xform_present _ _ _ HM1)).
  rewrite (bind_ret _ _ _ _ _ (get_center_point_center _ _ _ HM1)).
  rewrite (move_present _ _ _ _ _ _ HM1).
  subst w1. simpl. fold off.
  by rewrite insert_insert_eq, <- app_assoc.
Qed.

(** When one of the two objects is missing, the first or the second query
    fails and nothing has been issued. *)
Lemma offset_absent (w : maya) (S M : string) (gap : Qc) :
  scene w !! S = None ∨ scene w !! M = None →
  offset_objs_in_x S M gap w = (Raise HostQueryFailure, w).
Proof.
  intros H. unfold offset_objs_in_x.
  destruct (scene w !! S) as [bs|] eqn:HS.
  - destruct H as [H|HM]; [done|].
    rewrite (bind_ret _ _ _ _ _ (get_center_point_center _ _ _ HS)).
    by rewrite (bind_raise _ _ _ _ _ (get_center_point_absent _ _ _ _ HM)).
  - by rewrite (bind_raise _ _ _ _ _ (get_center_point_absent _ _ _ _ HS)).
Qed.





(** C8: whatever [offset_objs_in_x] answers, every move it has issued is
    a relative move of [obj_move] with dy = 0 and dz = 0, so none is a move
    of [obj_static], the other object; the y and z bounds of every object,
    the moving one included, are the ones it started with; and the bounding
    box of the static object is the one it started with. *)
Theorem offset_objs_in_x_frame (w : maya) (S M : string) (gap : Qc) :
  let w' := (offset_objs_in_x S M gap w).2 in
  (∃ ms, moves w' = moves w ++ ms ∧ Forall (along_x M) ms)
  ∧ (∀ o b, scene w !! o = Some b →
       ∃ b', scene w' !! o = Some b' ∧ same_y_z b b')
  ∧ (S ≠ M → scene w' !! S = scene w !! S).
Proof.
  destruct (scene w !! S) as [bs|] eqn:HS; [destruct (scene w !! M) as [bm|] eqn:HM|].
  - rewrite (offset_run _ _ _ gap _ _ HS HM). simpl. split_and!.
    + eexists. split; [reflexivity|]. by repeat constructor.
    + intros o b Ho. destruct (decide (M = o)) as [->|Hne].
      * rewrite lookup_insert_eq. eexists. split; [reflexivity|].
        assert (b = bm) as -> by congruence.
        unfold same_y_z, translate. simpl. by rewrite !Qcplus_0_r.
      * rewrite lookup_insert_ne by done. exists b. by split.
    + intros Hne. rewrite lookup_insert_ne by done. done.
  - rewrite (offset_absent w S M gap) by auto. simpl. split_and!.
    + exists []. by rewrite app_nil_r.
    + intros o b Ho. exists b. by split.
    + by rewrite HS.
  - rewrite (offset_absent w S M gap) by auto. simpl. split_and!.
    + exists []. by rewrite app_nil_r.
    + intros o b Ho. exists b. by split.
    + by rewrite HS.
Qed.

Lemma offset_objs_in_x_frame_witness :
  let w' := (offset_objs_in_x "A" "B" 1 two_boxes).2 in
  (∃ ms, moves w' = moves two_boxes ++ ms ∧ Forall (along_x "B") ms)
  ∧ (∀ o b, scene two_boxes !! o = Some b →
       ∃ b', scene w' !! o = Some b' ∧ same_y_z b b')
  ∧ ("A" ≠ "B" → scene w' !! "A" = scene two_boxes !! "A").
Proof. exact (offset_objs_in_x_frame two_boxes "A" "B" 1). Defined.

(** ** read_stack_xml *)

Lemma lookup3_empty (g o c : string) : lookup3 ∅ g o c = None.
Proof. unfold lookup3. by rewrite lookup_empty. Qed.

Lemma lookup3_setitem3 (m : stack_dict) (g o c v g' o' c' : string) :
  lookup3 (setitem3 g o c v m) g' o' c' =
    if decide ((g, o, c) = (g', o', c')) then Some v else lookup3 m g' o' c'.
Proof.
  unfold setitem3, autoviv_getitem, lookup3.
  destruct (m !! g) as [level1|] eqn:Hg;
    [destruct (level1 !! o) as [level2|] eqn:Ho|];
    (destruct (decide (g = g')) as [<-|Hgne];
     [destruct (decide (o = o')) as [<-|Hone];
      [destruct (decide (c = c')) as [<-|Hcne]|]|]);
    repeat case_decide; simplify_eq; simplify_map_eq; try done.
Qed.

Lemma for_each_app {A B} (xs ys : list A) (body : A → B → result B) (acc : B) :
  for_each (xs ++ ys) body acc =
    match for_each xs body acc with
    | Ret acc' => for_each ys body acc'
    | Raise e => Raise e
    end.
Proof.
  revert acc. induction xs as [|x xs IH]; intros acc; [done|].
  simpl. destruct (body x acc); [apply IH|done].
Qed.

Lemma for_each_flatten {A A' B} (xs : list A) (f : A → list A')
    (body : A' → B → result B) (acc : B) :
  for_each (xs ≫= f) body acc
  = for_each xs (λ x acc', for_each (f x) body acc') acc.
Proof.
  revert acc. induction xs as [|x xs IH]; intros acc; [done|].
  rewrite bind_cons, for_each_app. simpl.
  destruct (for_each (f x) body acc); [apply IH|done].
Qed.

Lemma for_each_ext {A B} (xs : list A) (body1 body2 : A → B → result B) (acc : B) :
  (∀ x acc', body1 x acc' = body2 x acc') →
  for_each xs body1 acc = for_each xs body2 acc.
Proof.
  intros Hext. revert acc. induction xs as [|x xs IH]; intros acc; [done|].
  simpl. rewrite Hext. destruct (body2 x acc); [apply IH|done].
Qed.

Lemma read_groups_components (root : element) :
  read_groups root = for_each (components root) store_component ∅.
Proof.
  unfold read_groups, components.
  rewrite for_each_flatten. apply for_each_ext. intros stack acc.
  rewrite for_each_flatten. apply for_each_ext. intros i acc'.
  rewrite for_each_flatten. apply for_each_ext. intros comp acc''.
  simpl. unfold store_component. by destruct (attrib comp !! "value").
Qed.

Lemma store_components_lookup (cs : list (string * string * element)) :
  ∀ m : stack_dict,
    Forall (λ entry, is_Some (attrib entry.2 !! "value")) cs →
    ∃ m', for_each cs store_component m = Ret m'
      ∧ ∀ g o c, lookup3 m' g o c =
          match last_value cs g o c with
          | Some v => Some v
          | None => lookup3 m g o c
          end.
Proof.
  induction cs as [|[[g' o'] comp] cs IH]; intros m Hall.
  - exists m. split; [done|]. intros g o c. done.
  - apply Forall_cons in Hall as [[v Hv] Hall]. simpl in Hv.
    simpl for_each. rewrite Hv.
    destruct (IH (setitem3 g' o' (tag comp) v m) Hall) as (m' & Hrun & Hlook).
    exists m'. split; [done|]. intros g o c.
    rewrite Hlook, lookup3_setitem3. simpl last_value.
    destruct (last_value cs g o c); [done|].
    case_decide; [by rewrite Hv|done].
Qed.

Lemma read_stack_xml_file (fs : fsys) (path : string) (root : element) :
  files fs !! path = Some (RegularFile (Some root)) →
  read_stack_xml path fs =
    (match read_groups root with
     | Ret contents => Ret (Some contents)
     | Raise e => Raise e
     end, {| files := files fs; opened := opened fs ++ [path] |}).
Proof.
  intros Hfile. unfold read_stack_xml, St.bind, os_path_isfile, et_parse_getroot.
  rewrite Hfile. simpl. rewrite Hfile. by destruct (read_groups root).
Qed.

(** C7 (as amended): on a file that parses to a document in which every
    third-level element carries a [value] attribute, [read_stack_xml] answers
    a three-level dictionary that maps the tag of a group, the tag of an
    object entry in it and the tag of a child element of that entry to the
    string of the [value] attribute of that child element, as it is in the
    file (the last such child at a path when there are several), and has no
    other path. *)
Theorem read_stack_xml_mapping (fs : fsys) (path : string) (root : element) :
  files fs !! path = Some (RegularFile (Some root)) →
  Forall (λ entry, is_Some (attrib entry.2 !! "value")) (components root) →
  ∃ contents : stack_dict,
    (read_stack_xml path fs).1 = Ret (Some contents)
    ∧ ∀ g o c, lookup3 contents g o c = last_value (components root) g o c.
Proof.
  intros Hfile Hall.
  rewrite (read_stack_xml_file _ _ _ Hfile), read_groups_components.
  destruct (store_components_lookup (components root) ∅ Hall)
    as (contents & Hrun & Hlook).
  rewrite Hrun. exists contents. split; [done|]. intros g o c.
  rewrite Hlook, lookup3_empty. by destruct (last_value _ _ _ _).
Qed.

Lemma read_stack_xml_mapping_witness :
  ∃ contents : stack_dict,
    (read_stack_xml "/tmp/stacks.xml" (disk "/tmp/stacks.xml" doc_with_children)).1
      = Ret (Some contents)
    ∧ ∀ g o c, lookup3 contents g o c
               = last_value (components doc_with_children) g o c.
Proof.
  apply (read_stack_xml_mapping (disk "/tmp/stacks.xml" doc_with_children)
           "/tmp/stacks.xml" doc_with_children).
  - vm_compute. reflexivity.
  - repeat constructor; eexists; vm_compute; reflexivity.
Defined.

(** C7, the claim as stated fails twice.  On a document whose object entry
    carries [tx], [ty] and [tz] as attributes the dictionary read is empty:
    there is nothing under the group.  On a document where they are child
    elements, the value stored is the text of the [value] attribute, here
    the string [two], which no number parser accepts. *)
Lemma read_stack_xml_ignores_entry_attributes :
  attrib (Element "stack001"
            (<["tx" := "1.0"]> (<["ty" := "2.0"]> (<["tz" := "3.0"]> ∅))) [])
    !! "tx" = Some "1.0"
  ∧ (read_stack_xml "/tmp/stacks.xml"
       (disk "/tmp/stacks.xml" doc_with_attributes)).1 = Ret (Some ∅)
  ∧ ∃ contents,
      (read_stack_xml "/tmp/stacks.xml"
         (disk "/tmp/stacks.xml" doc_with_children)).1 = Ret (Some contents)
      ∧ lookup3 contents "maya_stacks" "stack001" "ty" = Some "two".
Proof.
  split; [by vm_compute|]. split; [by vm_compute|].
  eexists. split; [vm_compute; reflexivity|]. by vm_compute.
Qed.

(** C10: on a path that is not a regular file, a directory or a path that
    names nothing, [read_stack_xml] answers [None]; it raises nothing and
    the file system is as before, no file having been opened. *)
Theorem read_stack_xml_not_a_file (fs : fsys) (path : string) :
  (∀ content, files fs !! path ≠ Some (RegularFile content)) →
  read_stack_xml path fs = (Ret None, fs).
Proof.
  intros Hno. unfold read_stack_xml, St.bind, os_path_isfile.
  destruct (files fs !! path) as [[|content]|] eqn:Hp; try done.
  by destruct (Hno content).
Qed.

Lemma read_stack_xml_not_a_file_witness :
  read_stack_xml "/tmp" (disk "/tmp/stacks.xml" doc_with_children)
  = (Ret None, disk "/tmp/stacks.xml" doc_with_children)
  ∧ read_stack_xml "/nowhere.xml" (disk "/tmp/stacks.xml" doc_with_children)
  = (Ret None, disk "/tmp/stacks.xml" doc_with_children).
Proof.
  split.
  - apply (read_stack_xml_not_a_file (disk "/tmp/stacks.xml" doc_with_children) "/tmp").
    intros content H. vm_compute in H. discriminate H.
  - reflexivity.
Defined.

(** * Further properties of stacker.py *)

(** ** Extents *)




(** ** What stack_objs leaves alone *)

Lemma align_pair_absent (w : maya) (a b : string) :
  scene w !! a = None ∨ scene w !! b = None →
  align_pair a b w = (Raise HostQueryFailure, w).
Proof.
  intros H. unfold align_pair.
  destruct (scene w !! a) as [bl|] eqn:Ha.
  - destruct H as [H|Hb]; [done|].
    rewrite (bind_ret _ _ _ _ _ (get_center_point_top _ _ _ Ha)).
    by rewrite (bind_raise _ _ _ _ _ (get_center_point_absent _ _ _ _ Hb)).
  - by rewrite (bind_raise _ _ _ _ _ (get_center_point_absent _ _ _ _ Ha)).
Qed.





(** ** A missing object *)

Lemma stack_from_missing (pre : list string) (ghost : string) (post : list string) :
  ∀ (a : string) (w : maya),
    all_present (scene w) (a :: pre) → scene w !! ghost = None →
    ∃ w', stack_from a pre w = (Ret tt, w')
      ∧ stack_from a (pre ++ ghost :: post) w = (Raise HostQueryFailure, w').
Proof.
  induction pre as [|b pre IH]; intros a w Hall Hghost.
  - exists w. split; [done|]. simpl.
    by rewrite (bind_raise _ _ _ _ _ (align_pair_absent w a ghost (or_intror Hghost))).
  - pose proof Hall as Hall'.
    apply Forall_cons in Hall' as [[bl Hbl] Hall'].
    pose proof Hall' as Hall''.
    apply Forall_cons in Hall'' as [[bu Hbu] _].
    simpl.
    rewrite !(bind_ret _ _ _ _ _ (align_pair_present _ _ _ _ _ Hbl Hbu)).
    apply IH.
    + by apply all_present_insert.
    + simpl. rewrite lookup_insert_ne; [done|]. intros <-. congruence.
Qed.

(** X3: when the first k elements (k at least 1) are objects of the scene
    and the next one is not, [stack_objs] raises the failure of the host, and
    the world it leaves is the one in which the first k elements have been
    stacked: what was placed before the failure is not undone. *)
Theorem stack_objs_missing_object (a : string) (pre : list string)
    (ghost : string) (post : list string) (w : maya) :
  all_present (scene w) (a :: pre) → scene w !! ghost = None →
  ∃ w', stack_objs (Some <$> (a :: pre)) w = (Ret PyTrue, w')
    ∧ stack_objs (Some <$> (a :: pre ++ ghost :: post)) w
      = (Raise HostQueryFailure, w').
Proof.
  intros Hall Hghost.
  destruct (stack_from_missing pre ghost post a w Hall Hghost) as (w' & Hok & Hfail).
  exists w'. split; [by apply stack_objs_from|].
  by rewrite stack_objs_names, (bind_raise _ _ _ _ _ Hfail).
Qed.

Lemma stack_objs_missing_object_witness :
  ∃ w', stack_objs (Some <$> ["A"; "B"]) two_boxes = (Ret PyTrue, w')
    ∧ stack_objs (Some <$> ("A" :: ["B"] ++ "ghost" :: ["A"])) two_boxes
      = (Raise HostQueryFailure, w').
Proof.
  apply (stack_objs_missing_object "A" ["B"] "ghost" ["A"] two_boxes).
  - repeat constructor; eexists; vm_compute; reflexivity.
  - vm_compute. reflexivity.
Defined.

(** * Further properties of offset_objs_in_x and of the loop that calls it *)

(** X9: [offset_objs_in_x] succeeds exactly when both objects are in the
    scene; when one is missing it raises the failure of the host before any
    move has been issued, so the world is the one it started from. *)
Theorem offset_objs_in_x_succeeds_iff (w : maya) (S M : string) (gap : Qc) :
  ((offset_objs_in_x S M gap w).1 = Ret tt
     ↔ is_Some (scene w !! S) ∧ is_Some (scene w !! M))
  ∧ ((offset_objs_in_x S M gap w).1 ≠ Ret tt →
       offset_objs_in_x S M gap w = (Raise HostQueryFailure, w)).
Proof.
  destruct (scene w !! S) as [bs|] eqn:HS; [destruct (scene w !! M) as [bm|] eqn:HM|].
  - rewrite (offset_run _ _ _ gap _ _ HS HM). simpl. split; [|done].
    split; [|done]. intros _. split; eauto.
  - rewrite (offset_absent w S M gap) by auto. simpl. split; [|done].
    split; [done|]. intros [_ [? ?]]. done.
  - rewrite (offset_absent w S M gap) by auto. simpl. split; [|done].
    split; [done|]. intros [[? ?] _]. done.
Qed.

Lemma offset_objs_in_x_succeeds_iff_witness :
  ((offset_objs_in_x "A" "ghost" 1 two_boxes).1 = Ret tt
     ↔ is_Some (scene two_boxes !! "A") ∧ is_Some (scene two_boxes !! "ghost"))
  ∧ ((offset_objs_in_x "A" "ghost" 1 two_boxes).1 ≠ Ret tt →
       offset_objs_in_x "A" "ghost" 1 two_boxes
       = (Raise HostQueryFailure, two_boxes)).
Proof. exact (offset_objs_in_x_succeeds_iff two_boxes "A" "ghost" 1). Defined.

(** ** The separation loop of make_stacks *)

Lemma stack_name_inj (i j : nat) : stack_name i = stack_name j → i = j.
Proof.
  unfold stack_name. intros H.
  apply (inj (String.append "stack00")) in H. by apply (inj pretty) in H.
Qed.







(** * Further properties of gen_utils.py *)

(** ** Nested assignment in an Autovivification dictionary *)

Lemma setitem3_no_empty (m : stack_dict) (g o c v : string) :
  no_empty_level m → no_empty_level (setitem3 g o c v m).
Proof.
  intros Hm g' level1 Hg'. unfold setitem3, autoviv_getitem in Hg'.
  destruct (m !! g) as [l1|] eqn:Hg.
  - destruct (l1 !! o) as [l2|] eqn:Ho.
    + destruct (decide (g = g')) as [<-|Hne].
      * rewrite lookup_insert_eq in Hg'. injection Hg' as <-.
        split; [apply insert_non_empty|]. intros o' level2 Ho'.
        destruct (decide (o = o')) as [<-|Hne'].
        -- rewrite lookup_insert_eq in Ho'. injection Ho' as <-.
           apply insert_non_empty.
        -- rewrite lookup_insert_ne in Ho' by done.
           by apply (proj2 (Hm g l1 Hg) o').
      * rewrite lookup_insert_ne in Hg' by done. by apply (Hm g').
    + destruct (decide (g = g')) as [<-|Hne].
      * rewrite lookup_insert_eq in Hg'. injection Hg' as <-.
        split; [apply insert_non_empty|]. intros o' level2 Ho'.
        destruct (decide (o = o')) as [<-|Hne'].
        -- rewrite lookup_insert_eq in Ho'. injection Ho' as <-.
           apply insert_non_empty.
        -- rewrite !lookup_insert_ne in Ho' by done.
           by apply (proj2 (Hm g l1 Hg) o').
      * rewrite lookup_insert_ne in Hg' by done. by apply (Hm g').
  - rewrite lookup_empty in Hg'.
    destruct (decide (g = g')) as [<-|Hne].
    + rewrite lookup_insert_eq in Hg'. injection Hg' as <-.
      split; [apply insert_non_empty|]. intros o' level2 Ho'.
      destruct (decide (o = o')) as [<-|Hne'].
      * rewrite lookup_insert_eq in Ho'. injection Ho' as <-.
        apply insert_non_empty.
      * rewrite !lookup_insert_ne in Ho' by done.
        by rewrite lookup_empty in Ho'.
    + rewrite !lookup_insert_ne in Hg' by done. by apply (Hm g').
Qed.

(** X11: after the nested assignment [contents[g][o][c] = v] in a
    dictionary of the [Autovivification] class, the path [g/o/c] reads [v]
    and every other path reads what it read before; the assignment leaves no
    empty inner dictionary behind when there was none. *)
Theorem setitem3_round_trip (m : stack_dict) (g o c v : string) :
  lookup3 (setitem3 g o c v m) g o c = Some v
  ∧ (∀ g' o' c', (g', o', c') ≠ (g, o, c) →
       lookup3 (setitem3 g o c v m) g' o' c' = lookup3 m g' o' c')
  ∧ (no_empty_level m → no_empty_level (setitem3 g o c v m)).
Proof.
  split_and!.
  - rewrite lookup3_setitem3. by rewrite decide_True.
  - intros g' o' c' Hne. rewrite lookup3_setitem3.
    rewrite decide_False; [done|]. intros Heq. by apply Hne.
  - apply setitem3_no_empty.
Qed.

Lemma setitem3_round_trip_witness :
  lookup3 (setitem3 "maya_stacks" "stack001" "tx" "1.0" ∅)
          "maya_stacks" "stack001" "tx" = Some "1.0"
  ∧ (∀ g' o' c', (g', o', c') ≠ ("maya_stacks", "stack001", "tx") →
       lookup3 (setitem3 "maya_stacks" "stack001" "tx" "1.0" ∅) g' o' c'
       = lookup3 ∅ g' o' c')
  ∧ (no_empty_level ∅ →
     no_empty_level (setitem3 "maya_stacks" "stack001" "tx" "1.0" ∅)).
Proof. exact (setitem3_round_trip ∅ "maya_stacks" "stack001" "tx" "1.0"). Defined.

(** ** What read_stack_xml answers on a file that parses *)

Lemma store_components_inv (cs : list (string * string * element)) :
  ∀ m m' : stack_dict,
    for_each cs store_component m = Ret m' →
    (no_empty_level m → no_empty_level m')
    ∧ (∀ g o c, lookup3 m' g o c =
         match last_value cs g o c with
         | Some v => Some v
         | None => lookup3 m g o c
         end)
    ∧ (cs ≠ [] → ∃ g o c v, lookup3 m' g o c = Some v).
Proof.
  induction cs as [|[[g' o'] comp] cs IH]; intros m m' Hrun.
  - injection Hrun as <-. by split_and!.
  - simpl in Hrun. destruct (attrib comp !! "value") as [v|] eqn:Hv; [|done].
    destruct (IH _ _ Hrun) as (Hne & Hlook & Hpath). split_and!.
    + intros Hm. by apply Hne, setitem3_no_empty.
    + intros g o c. rewrite Hlook, lookup3_setitem3. simpl last_value.
      destruct (last_value cs g o c); [done|].
      case_decide; [by rewrite Hv|done].
    + intros _. destruct cs as [|entry cs'].
      * injection Hrun as <-. exists g', o', (tag comp), v.
        rewrite lookup3_setitem3. by rewrite decide_True.
      * by apply Hpath.
Qed.

Lemma store_components_outcome (cs : list (string * string * element)) :
  ∀ m : stack_dict,
    (Forall (λ entry, is_Some (attrib entry.2 !! "value")) cs
     ∧ ∃ m', for_each cs store_component m = Ret m')
    ∨ (Exists (λ entry, attrib entry.2 !! "value" = None) cs
       ∧ for_each cs store_component m = Raise KeyError).
Proof.
  induction cs as [|[[g' o'] comp] cs IH]; intros m.
  - left. split; [constructor|]. by exists m.
  - simpl. destruct (attrib comp !! "value") as [v|] eqn:Hv.
    + destruct (IH (setitem3 g' o' (tag comp) v m)) as [[Hall Hrun]|[Hex Hrun]].
      * left. split; [|done]. constructor; [by simpl; rewrite Hv|done].
      * right. split; [|done]. by apply Exists_cons_tl.
    + right. split; [|done]. by apply Exists_cons_hd.
Qed.

Lemma no_empty_level_empty : no_empty_level ∅.
Proof. intros g level1 Hg. by rewrite lookup_empty in Hg. Qed.

Lemma read_stack_xml_result (fs : fsys) (path : string) (root : element)
    (contents : stack_dict) :
  files fs !! path = Some (RegularFile (Some root)) →
  (read_stack_xml path fs).1 = Ret (Some contents) →
  for_each (components root) store_component ∅ = Ret contents.
Proof.
  intros Hfile. rewrite (read_stack_xml_file _ _ _ Hfile), read_groups_components.
  simpl. destruct (for_each _ _ _); [|done]. by intros [= ->].
Qed.

(** X12: on a file that parses, [read_stack_xml] raises [KeyError] exactly
    when some third-level element of the document has no [value] attribute;
    no dictionary is answered then, whatever the other elements hold. *)
Theorem read_stack_xml_missing_value (fs : fsys) (path : string) (root : element) :
  files fs !! path = Some (RegularFile (Some root)) →
  (read_stack_xml path fs).1 = Raise KeyError
  ↔ Exists (λ entry, attrib entry.2 !! "value" = None) (components root).
Proof.
  intros Hfile. rewrite (read_stack_xml_file _ _ _ Hfile), read_groups_components.
  simpl.
  destruct (store_components_outcome (components root) ∅)
    as [[Hall [m' Hrun]]|[Hex Hrun]]; rewrite Hrun.
  - split; [done|]. intros Hex. apply Exists_exists in Hex as (entry & Hin & Hnone).
    rewrite Forall_forall in Hall. destruct (Hall entry Hin) as [v Hv]. congruence.
  - done.
Qed.

Lemma read_stack_xml_missing_value_witness :
  (read_stack_xml "/tmp/stacks.xml"
     (disk "/tmp/stacks.xml" doc_missing_value)).1 = Raise KeyError
  ∧ Exists (λ entry, attrib entry.2 !! "value" = None)
           (components doc_missing_value).
Proof.
  assert (Hex : Exists (λ entry, attrib entry.2 !! "value" = None)
                       (components doc_missing_value)).
  { apply Exists_cons_tl, Exists_cons_hd. vm_compute. reflexivity. }
  split; [|exact Hex].
  apply (read_stack_xml_missing_value (disk "/tmp/stacks.xml" doc_missing_value)
           "/tmp/stacks.xml" doc_missing_value).
  - vm_compute. reflexivity.
  - exact Hex.
Defined.

(** X13: a dictionary answered by [read_stack_xml] has no empty inner
    dictionary: every group key holds at least one object key and every
    object key holds at least one component. *)
Theorem read_stack_xml_no_empty_level (fs : fsys) (path : string) (root : element)
    (contents : stack_dict) :
  files fs !! path = Some (RegularFile (Some root)) →
  (read_stack_xml path fs).1 = Ret (Some contents) →
  no_empty_level contents.
Proof.
  intros Hfile Hread.
  pose proof (read_stack_xml_result _ _ _ _ Hfile Hread) as Hrun.
  destruct (store_components_inv _ _ _ Hrun) as (Hne & _ & _).
  apply Hne, no_empty_level_empty.
Qed.

Lemma read_stack_xml_no_empty_level_witness :
  no_empty_level
    (setitem3 "maya_stacks" "stack001" "tz" "3.0"
       (setitem3 "maya_stacks" "stack001" "ty" "two"
          (setitem3 "maya_stacks" "stack001" "tx" "1.0" ∅))).
Proof.
  apply (read_stack_xml_no_empty_level (disk "/tmp/stacks.xml" doc_with_children)
           "/tmp/stacks.xml" doc_with_children).
  - vm_compute. reflexivity.
  - reflexivity.
Defined.

(** X14: on a file that parses, [read_stack_xml] answers the empty
    dictionary exactly when the document has no third-level element. *)
Theorem read_stack_xml_empty_iff (fs : fsys) (path : string) (root : element) :
  files fs !! path = Some (RegularFile (Some root)) →
  (read_stack_xml path fs).1 = Ret (Some ∅) ↔ components root = [].
Proof.
  intros Hfile. split.
  - intros Hread.
    pose proof (read_stack_xml_result _ _ _ _ Hfile Hread) as Hrun.
    destruct (store_components_inv _ _ _ Hrun) as (_ & _ & Hpath).
    destruct (components root) as [|entry cs]; [done|].
    destruct Hpath as (g & o & c & v & Hv); [done|].
    by rewrite lookup3_empty in Hv.
  - intros Hnil.
    rewrite (read_stack_xml_file _ _ _ Hfile), read_groups_components, Hnil.
    done.
Qed.

Lemma read_stack_xml_empty_iff_witness :
  (read_stack_xml "/tmp/stacks.xml"
     (disk "/tmp/stacks.xml" doc_with_attributes)).1 = Ret (Some ∅)
  ↔ components doc_with_attributes = [].
Proof.
  apply (read_stack_xml_empty_iff (disk "/tmp/stacks.xml" doc_with_attributes)
           "/tmp/stacks.xml" doc_with_attributes).
  vm_compute. reflexivity.
Defined.

(** ** The dictionary depends on the last value at each path only *)

Lemma no_empty_level_path (m : stack_dict) (g : string)
    (level1 : gmap string (gmap string string)) :
  no_empty_level m → m !! g = Some level1 →
  ∃ o c v, lookup3 m g o c = Some v.
Proof.
  intros Hm Hg. destruct (Hm g level1 Hg) as [Hne1 Hne2].
  apply map_choose in Hne1 as (o & level2 & Ho).
  pose proof (Hne2 o level2 Ho) as Hne.
  apply map_choose in Hne as (c & v & Hc).
  exists o, c, v. unfold lookup3. rewrite Hg. simpl. rewrite Ho. simpl. done.
Qed.

Lemma lookup3_level2 (m : stack_dict) (g o c : string)
    (level1 : gmap string (gmap string string)) (level2 : gmap string string) :
  m !! g = Some level1 → level1 !! o = Some level2 →
  lookup3 m g o c = level2 !! c.
Proof. intros Hg Ho. unfold lookup3. rewrite Hg. simpl. by rewrite Ho. Qed.

Lemma lookup3_no_group (m : stack_dict) (g o c : string) :
  m !! g = None → lookup3 m g o c = None.
Proof. intros Hg. unfold lookup3. by rewrite Hg. Qed.

Lemma lookup3_no_object (m : stack_dict) (g o c : string)
    (level1 : gmap string (gmap string string)) :
  m !! g = Some level1 → level1 !! o = None → lookup3 m g o c = None.
Proof. intros Hg Ho. unfold lookup3. rewrite Hg. simpl. by rewrite Ho. Qed.

Lemma level1_ext (m1 m2 : stack_dict) (g : string)
    (l1 l1' : gmap string (gmap string string)) :
  no_empty_level m1 → no_empty_level m2 →
  (∀ o c, lookup3 m1 g o c = lookup3 m2 g o c) →
  m1 !! g = Some l1 → m2 !! g = Some l1' → l1 = l1'.
Proof.
  intros H1 H2 Hext Hg1 Hg2. apply map_eq. intros o.
  destruct (l1 !! o) as [l2|] eqn:Ho1, (l1' !! o) as [l2'|] eqn:Ho2; [| | |done].
  - f_equal. apply map_eq. intros c.
    rewrite <- (lookup3_level2 m1 g o c l1 l2 Hg1 Ho1).
    rewrite <- (lookup3_level2 m2 g o c l1' l2' Hg2 Ho2). apply Hext.
  - destruct (H1 g l1 Hg1) as [_ Hne]. specialize (Hne o l2 Ho1).
    apply map_choose in Hne as (c & v & Hc). specialize (Hext o c).
    rewrite (lookup3_level2 m1 g o c l1 l2 Hg1 Ho1) in Hext.
    rewrite (lookup3_no_object m2 g o c l1' Hg2 Ho2) in Hext. congruence.
  - destruct (H2 g l1' Hg2) as [_ Hne]. specialize (Hne o l2' Ho2).
    apply map_choose in Hne as (c & v & Hc). specialize (Hext o c).
    rewrite (lookup3_level2 m2 g o c l1' l2' Hg2 Ho2) in Hext.
    rewrite (lookup3_no_object m1 g o c l1 Hg1 Ho1) in Hext. congruence.
Qed.

Lemma stack_dict_ext (m1 m2 : stack_dict) :
  no_empty_level m1 → no_empty_level m2 →
  (∀ g o c, lookup3 m1 g o c = lookup3 m2 g o c) → m1 = m2.
Proof.
  intros H1 H2 Hext. apply map_eq. intros g.
  destruct (m1 !! g) as [l1|] eqn:Hg1, (m2 !! g) as [l1'|] eqn:Hg2; [| | |done].
  - f_equal. apply (level1_ext m1 m2 g); [done..| |done|done].
    intros o c. apply Hext.
  - destruct (no_empty_level_path m1 g l1 H1 Hg1) as (o & c & v & Hv).
    rewrite Hext, (lookup3_no_group m2 g o c Hg2) in Hv. done.
  - destruct (no_empty_level_path m2 g l1' H2 Hg2) as (o & c & v & Hv).
    rewrite <- Hext, (lookup3_no_group m1 g o c Hg1) in Hv. done.
Qed.

(** X15: two files from which [read_stack_xml] answers a dictionary, and
    whose documents have the same last [value] at every path group / object
    / component, are read to the same dictionary: the order of the elements
    and the repetitions before the last one do not show in the result. *)
Theorem read_stack_xml_same_paths (fs1 fs2 : fsys) (path1 path2 : string)
    (root1 root2 : element) (contents1 contents2 : stack_dict) :
  files fs1 !! path1 = Some (RegularFile (Some root1)) →
  files fs2 !! path2 = Some (RegularFile (Some root2)) →
  (read_stack_xml path1 fs1).1 = Ret (Some contents1) →
  (read_stack_xml path2 fs2).1 = Ret (Some contents2) →
  (∀ g o c, last_value (components root1) g o c
            = last_value (components root2) g o c) →
  contents1 = contents2.
Proof.
  intros Hfile1 Hfile2 Hread1 Hread2 Hsame.
  pose proof (read_stack_xml_result _ _ _ _ Hfile1 Hread1) as Hrun1.
  pose proof (read_stack_xml_result _ _ _ _ Hfile2 Hread2) as Hrun2.
  destruct (store_components_inv _ _ _ Hrun1) as (Hne1 & Hlook1 & _).
  destruct (store_components_inv _ _ _ Hrun2) as (Hne2 & Hlook2 & _).
  apply stack_dict_ext.
  - apply Hne1, no_empty_level_empty.
  - apply Hne2, no_empty_level_empty.
  - intros g o c. by rewrite Hlook1, Hlook2, Hsame.
Qed.

Lemma read_stack_xml_same_paths_witness :
  setitem3 "maya_stacks" "stack001" "tz" "3.0"
    (setitem3 "maya_stacks" "stack001" "ty" "two"
       (setitem3 "maya_stacks" "stack001" "tx" "1.0" ∅))
  = setitem3 "maya_stacks" "stack001" "tx" "1.0"
      (setitem3 "maya_stacks" "stack001" "ty" "two"
         (setitem3 "maya_stacks" "stack001" "tz" "3.0"
            (setitem3 "maya_stacks" "stack001" "ty" "2.0" ∅))).
Proof.
  apply (read_stack_xml_same_paths
           (disk "/tmp/a.xml" doc_with_children) (disk "/tmp/b.xml" doc_reordered)
           "/tmp/a.xml" "/tmp/b.xml" doc_with_children doc_reordered).
  - vm_compute. reflexivity.
  - vm_compute. reflexivity.
  - reflexivity.
  - reflexivity.
  - intros g o c. unfold components, doc_with_children, doc_reordered.
    simpl. repeat case_decide; simplify_eq; done.
Defined.
